(** * echo.py: argument classification and printing

    A shallow embedding of [src/echo.py].  The script prints its whole
    argument vector, splits the user arguments into flags and plain values
    with [split_args], and prints the values joined by a separator and
    closed by a terminator that both depend on the flags. *)

From Stdlib Require Import Ascii.
From stdpp Require Import list strings.

(** ** The Python primitives the script relies on *)

Module Py.

(** The one-character string ['\n']. *)
Definition newline : string := String "010"%char "".

(** [s.startswith(pre)] *)
Definition startswith (s pre : string) : bool := String.prefix pre s.

(** [sep.join(xs)] *)
Definition join (sep : string) (xs : list string) : string :=
  String.concat sep xs.

(** [x in xs], for a list [xs]: some element equals [x]. *)
Definition contains (x : string) (xs : list string) : bool :=
  bool_decide (x ∈ xs).

(** [xs[1:]]; the slice of a list shorter than one element is empty. *)
Definition slice_from_1 (xs : list string) : list string := drop 1 xs.

End Py.

(** ** Standard output

    The only state the script touches is the standard output stream.  It
    is kept as the list of texts written so far, oldest first, one entry
    per call of [print]. *)

Record World : Type := { stdout : list string }.

Definition IO (A : Type) : Type := World → A * World.

(** Sequencing, through stdpp's monad interface and its [m ;; k] and
    [x ← m; k] notations. *)
#[global] Instance IO_ret : MRet IO := λ A a w, (a, w).

#[global] Instance IO_bind : MBind IO :=
  λ A B k m w, let '(a, w') := m w in k a w'.

(** [print(value, end=end_)] with a single positional argument; Python's
    default for [end] is ['\n'], selected here by [None]. *)
Definition print (value : string) (end_ : option string) : IO unit :=
  λ w, (tt, {| stdout := stdout w ++ [value +:+ default Py.newline end_] |}).

(** ** The script *)

(** One round of the [for] loop of [split_args]: [arg] is appended to
    [flags] or to [rest]. *)
Definition split_step (acc : list string * list string) (arg : string)
    : list string * list string :=
  let '(flags, rest) := acc in
  if Py.startswith arg "-" then (flags ++ [arg], rest)
  else (flags, rest ++ [arg]).

Definition split_args (args : list string) : list string * list string :=
  foldl split_step ([], []) args.

(** Lines 25 and 26, as functions of the list bound to [flags]. *)
Definition sep (flags : list string) : string :=
  if Py.contains "-s" flags then "" else " ".

Definition end_ (flags : list string) : string :=
  if Py.contains "-n" flags then "" else Py.newline.

(** The module body, run on [sys.argv]. *)
Definition main (argv : list string) : IO unit :=
  print (Py.join " " argv) None ;;
  let '(flags, args) := split_args (Py.slice_from_1 argv) in
  print (Py.join (sep flags) args) (Some (end_ flags)).

(** A process starts on an empty stream. *)
Definition fresh : World := {| stdout := [] |}.

(** What one run writes: the texts of its calls of [print], in order. *)
Definition run (argv : list string) : list string :=
  stdout (snd (main argv fresh)).

(** The text of the first (unconditional) and of the second (formatted)
    call of [print]. *)
Definition first_line (argv : list string) : option string := run argv !! 0.
Definition formatted_line (argv : list string) : option string := run argv !! 1.

(** Line 24: the two lists bound to [flags] and [args]. *)
Definition flags_of (argv : list string) : list string :=
  (split_args (Py.slice_from_1 argv)).1.
Definition values_of (argv : list string) : list string :=
  (split_args (Py.slice_from_1 argv)).2.

(** ** Vocabulary of the properties *)

(** A flag: a string that is not empty and whose first character is [-]. *)
Definition is_flag (a : string) : Prop :=
  a ≠ "" ∧ String.get 0 a = Some "-"%char.

#[global] Instance is_flag_dec (a : string) : Decision (is_flag a).
Proof. unfold is_flag. apply _. Defined.

(** [interleave l r a]: [a] is a merge of [l] and [r].  Every position of
    [a] is taken from exactly one of the two lists, and each list is used
    up from left to right. *)
Inductive interleave {A : Type} : list A → list A → list A → Prop :=
  | interleave_nil : interleave [] [] []
  | interleave_left x l r a :
      interleave l r a → interleave (x :: l) r (x :: a)
  | interleave_right x l r a :
      interleave l r a → interleave l (x :: r) (x :: a).

(** ** Doctests of [split_args] and the runs listed with the script *)

Example split_args_doctest_1 :
  split_args ["-n"; "foo"; "bar"] = (["-n"], ["foo"; "bar"]).
Proof. reflexivity. Qed.

Example split_args_doctest_2 :
  split_args ["-n"; "foo"; "-s"; "bar"] = (["-n"; "-s"], ["foo"; "bar"]).
Proof. reflexivity. Qed.

Example run_n_foo_bar :
  run ["echo.py"; "-n"; "foo"; "bar"]
  = ["echo.py -n foo bar" +:+ Py.newline; "foo bar"].
Proof. reflexivity. Qed.

Example run_s_a_b_c :
  run ["echo.py"; "-s"; "a"; "b"; "c"]
  = ["echo.py -s a b c" +:+ Py.newline; "abc" +:+ Py.newline].
Proof. reflexivity. Qed.

(** ** The primitives *)

Section primitives.

Lemma startswith_dash (a : string) :
  Py.startswith a "-" = true ↔ is_flag a.
Proof.
  unfold Py.startswith, is_flag.
  destruct a as [|c a]; cbn [String.prefix String.get].
  - split; [discriminate | intros [H _]; by destruct H].
  - destruct (Ascii.ascii_dec "-" c) as [<-|Hc]; split.
    + intros _. by split.
    + intros _. by destruct a.
    + discriminate.
    + intros [_ [=]]. by destruct Hc.
Qed.

Lemma startswith_dash_false (a : string) :
  Py.startswith a "-" = false ↔ ¬ is_flag a.
Proof.
  rewrite <-startswith_dash. by destruct (Py.startswith a "-").
Qed.

Lemma empty_not_flag : ¬ is_flag "".
Proof. intros [H _]. by apply H. Qed.

Lemma contains_elem_of (x : string) (xs : list string) :
  Py.contains x xs = true ↔ x ∈ xs.
Proof. unfold Py.contains. apply bool_decide_eq_true. Qed.

Lemma append_empty_r (s : string) : s +:+ "" = s.
Proof. induction s as [|c s IH]; [done|].
  change (String c (s +:+ "") = String c s). by rewrite IH.
Qed.

Lemma append_assoc (s t u : string) : (s +:+ t) +:+ u = s +:+ t +:+ u.
Proof.
  induction s as [|c s IH]; [done|].
  change (String c ((s +:+ t) +:+ u) = String c (s +:+ t +:+ u)).
  by rewrite IH.
Qed.

Lemma append_eq_empty (s t : string) : s +:+ t = "" → s = "" ∧ t = "".
Proof. by destruct s. Qed.

Lemma join_cons (s x : string) (xs : list string) :
  Py.join s (x :: xs)
  = x +:+ (if decide (xs = []) then "" else s +:+ Py.join s xs).
Proof.
  unfold Py.join. destruct xs as [|y ys].
  - cbn [String.concat]. by rewrite decide_True, append_empty_r.
  - by rewrite decide_False.
Qed.

End primitives.

(** ** Merges of two lists *)

Section interleave.
Context {A : Type}.
Implicit Types l r a : list A.

Lemma interleave_length l r a :
  interleave l r a → length l + length r = length a.
Proof. induction 1; simpl; lia. Qed.

Lemma interleave_sublist_l l r a : interleave l r a → l `sublist_of` a.
Proof. induction 1; eauto using sublist_nil, sublist_skip, sublist_cons. Qed.

Lemma interleave_sublist_r l r a : interleave l r a → r `sublist_of` a.
Proof. induction 1; eauto using sublist_nil, sublist_skip, sublist_cons. Qed.

Lemma interleave_Permutation l r a : interleave l r a → l ++ r ≡ₚ a.
Proof.
  induction 1 as [|x l r a _ IH|x l r a _ IH]; simpl.
  - done.
  - by rewrite IH.
  - by rewrite <-Permutation_middle, IH.
Qed.

Lemma interleave_filter (P : A → Prop) `{!∀ x, Decision (P x)} a :
  interleave (filter P a) (filter (λ x, ¬ P x) a) a.
Proof.
  induction a as [|x a IH]; [constructor|].
  destruct (decide (P x)) as [Hx|Hx].
  - rewrite (filter_cons_True P) by done.
    rewrite (filter_cons_False (λ x, ¬ P x)) by auto.
    by constructor.
  - rewrite (filter_cons_False P) by done.
    rewrite (filter_cons_True (λ x, ¬ P x)) by done.
    by constructor.
Qed.

End interleave.

(** ** The loop of [split_args] *)

Section split_args.
Implicit Types (args fs rs : list string) (a : string).

Lemma split_step_flag fs rs a :
  is_flag a → split_step (fs, rs) a = (fs ++ [a], rs).
Proof. intros Ha%startswith_dash. unfold split_step. by rewrite Ha. Qed.

Lemma split_step_value fs rs a :
  ¬ is_flag a → split_step (fs, rs) a = (fs, rs ++ [a]).
Proof.
  intros Ha%startswith_dash_false. unfold split_step. by rewrite Ha.
Qed.

(** The loop invariant: started on [(fs, rs)], the loop appends the
    flags of [args] to [fs] and the other elements to [rs]. *)
Lemma split_loop fs rs args :
  foldl split_step (fs, rs) args
  = (fs ++ filter is_flag args, rs ++ filter (λ a, ¬ is_flag a) args).
Proof.
  revert fs rs. induction args as [|a args IH]; intros fs rs.
  - by rewrite !filter_nil, !app_nil_r.
  - cbn [foldl]. destruct (decide (is_flag a)) as [Ha|Ha].
    + rewrite split_step_flag, IH by done.
      rewrite (filter_cons_True is_flag) by done.
      rewrite (filter_cons_False (λ a, ¬ is_flag a)) by auto.
      by rewrite <-app_assoc.
    + rewrite split_step_value, IH by done.
      rewrite (filter_cons_False is_flag) by done.
      rewrite (filter_cons_True (λ a, ¬ is_flag a)) by done.
      by rewrite <-app_assoc.
Qed.

Lemma split_args_filter args :
  split_args args
  = (filter is_flag args, filter (λ a, ¬ is_flag a) args).
Proof. unfold split_args. by rewrite split_loop. Qed.

Lemma split_args_app args1 args2 :
  split_args (args1 ++ args2)
  = ((split_args args1).1 ++ (split_args args2).1,
     (split_args args1).2 ++ (split_args args2).2).
Proof. by rewrite !split_args_filter, !filter_app. Qed.

Lemma split_args_singleton a :
  split_args [a] = if decide (is_flag a) then ([a], []) else ([], [a]).
Proof.
  unfold split_args. cbn [foldl].
  case_decide; [by rewrite split_step_flag|by rewrite split_step_value].
Qed.

End split_args.

(** ** The two writes of a run *)

Section main.
Implicit Types (argv args : list string) (prog : string) (w : World).

(** The text of the second call of [print]. *)
Local Abbreviation formatted argv :=
  (Py.join (sep (flags_of argv)) (values_of argv) +:+ end_ (flags_of argv)).

Lemma main_spec argv w :
  main argv w
  = (tt, {| stdout := stdout w
              ++ [Py.join " " argv +:+ Py.newline; formatted argv] |}).
Proof.
  unfold main, flags_of, values_of, mbind, IO_bind, print.
  destruct (split_args (Py.slice_from_1 argv)) as [flags args].
  cbn. by rewrite <-app_assoc.
Qed.

Lemma run_spec argv :
  run argv = [Py.join " " argv +:+ Py.newline; formatted argv].
Proof. unfold run. by rewrite main_spec. Qed.

Lemma first_line_spec argv :
  first_line argv = Some (Py.join " " argv +:+ Py.newline).
Proof. unfold first_line. by rewrite run_spec. Qed.

Lemma formatted_line_spec argv :
  formatted_line argv = Some (formatted argv).
Proof. unfold formatted_line. by rewrite run_spec. Qed.

Lemma flags_of_cons prog args :
  flags_of (prog :: args) = filter is_flag args.
Proof. unfold flags_of, Py.slice_from_1. by rewrite split_args_filter. Qed.

Lemma values_of_cons prog args :
  values_of (prog :: args) = filter (λ a, ¬ is_flag a) args.
Proof. unfold values_of, Py.slice_from_1. by rewrite split_args_filter. Qed.

(** The formatted line is settled by the values and by which of the two
    literals [-s] and [-n] occur among the flags. *)
Lemma formatted_line_ext argv1 argv2 :
  values_of argv1 = values_of argv2 →
  ("-s" ∈ flags_of argv1 ↔ "-s" ∈ flags_of argv2) →
  ("-n" ∈ flags_of argv1 ↔ "-n" ∈ flags_of argv2) →
  formatted_line argv1 = formatted_line argv2.
Proof.
  intros Hv Hs Hn. rewrite !formatted_line_spec, Hv.
  unfold sep, end_, Py.contains.
  by rewrite (bool_decide_ext _ _ Hs), (bool_decide_ext _ _ Hn).
Qed.

Lemma flags_of_filter argv : flags_of argv = filter is_flag (drop 1 argv).
Proof. unfold flags_of, Py.slice_from_1. by rewrite split_args_filter. Qed.

(** A literal that is a flag is among the flags exactly when it is among
    the user arguments. *)
Lemma elem_of_flags_of argv a :
  is_flag a → a ∈ flags_of argv ↔ a ∈ drop 1 argv.
Proof. intros Ha. rewrite flags_of_filter, list_elem_of_filter. tauto. Qed.

Lemma dash_s_is_flag : is_flag "-s".
Proof. by split. Qed.

Lemma dash_n_is_flag : is_flag "-n".
Proof. by split. Qed.

(** A flag put anywhere among the user arguments leaves the values as
    they are and adds itself to the flags. *)
Lemma values_of_insert_flag prog pre post f :
  is_flag f →
  values_of (prog :: pre ++ f :: post) = values_of (prog :: pre ++ post).
Proof.
  intros Hf. rewrite !values_of_cons, !filter_app.
  by rewrite (filter_cons_False (λ a, ¬ is_flag a)) by auto.
Qed.

Lemma elem_of_flags_of_insert prog pre post f x :
  is_flag f →
  x ∈ flags_of (prog :: pre ++ f :: post)
  ↔ x = f ∨ x ∈ flags_of (prog :: pre ++ post).
Proof.
  intros Hf. rewrite !flags_of_cons, !list_elem_of_filter.
  rewrite !elem_of_app, elem_of_cons. split.
  - intros [Hx [?|[->|?]]]; auto.
  - intros [->|[Hx [?|?]]]; auto.
Qed.

End main.

(** ** The unconditional first line *)

(** C1, as the claim states it, fails: with the user arguments [-n],
    [foo], [bar] and the script run as [echo.py], the first line is
    ["echo.py -n foo bar\n"], which is not the join of the user arguments
    alone. *)
Lemma first_line_without_name_counterexample :
  first_line ["echo.py"; "-n"; "foo"; "bar"]
    = Some ("echo.py -n foo bar" +:+ Py.newline)
  ∧ first_line ["echo.py"; "-n"; "foo"; "bar"]
    ≠ Some (Py.join " " ["-n"; "foo"; "bar"] +:+ Py.newline).
Proof. split; [reflexivity|]. vm_compute. discriminate. Qed.

(** C1, amended: in whatever state the stream is, a run first writes the
    whole of [sys.argv], the invocation name included, joined by single
    spaces and closed by a line terminator, and writes the formatted line
    after it; for the invocation name [prog] and the arguments [-n], [foo],
    [bar] the first line is [prog] followed by [" -n foo bar\n"]. *)
Theorem first_line_is_whole_argv (argv : list string) (w : World) :
  (∃ second,
     stdout (main argv w).2
     = stdout w ++ [Py.join " " argv +:+ Py.newline; second])
  ∧ (∀ prog, first_line [prog; "-n"; "foo"; "bar"]
             = Some (prog +:+ " -n foo bar" +:+ Py.newline)).
Proof.
  split.
  - rewrite main_spec. eauto.
  - intros prog. rewrite first_line_spec. f_equal.
    by rewrite <-append_assoc.
Qed.

(** C9: the first line is the whole argument vector, [argv[0]] included,
    joined by single spaces; so it begins with the invocation name, and
    with no user argument it is the invocation name alone, which is an
    empty line only for an empty invocation name. *)
Theorem first_line_begins_with_name (prog : string) (args : list string) :
  first_line (prog :: args) = Some (Py.join " " (prog :: args) +:+ Py.newline)
  ∧ (∃ rest, first_line (prog :: args) = Some (prog +:+ rest))
  ∧ first_line [prog] = Some (prog +:+ Py.newline)
  ∧ (first_line [prog] = Some Py.newline ↔ prog = "").
Proof.
  rewrite !first_line_spec. split_and!.
  - done.
  - rewrite join_cons, append_assoc. eauto.
  - done.
  - cbn [Py.join String.concat]. split.
    + intros [= H]. destruct prog as [|c prog]; [done|].
      injection H as _ H. by apply append_eq_empty in H as [_ ?].
    + by intros ->.
Qed.

(** ** Classification *)

(** C2: an argument goes to the flags exactly when it is not empty and its
    first character is [-], and to the values otherwise; the empty string
    goes to the values.  Stated for an argument at any position, and for
    membership in the two results. *)
Theorem classification_rule (a : string) :
  (∀ pre post,
     split_args (pre ++ a :: post)
     = if decide (a ≠ "" ∧ String.get 0 a = Some "-"%char)
       then ((split_args pre).1 ++ a :: (split_args post).1,
             (split_args pre).2 ++ (split_args post).2)
       else ((split_args pre).1 ++ (split_args post).1,
             (split_args pre).2 ++ a :: (split_args post).2))
  ∧ (∀ args, a ∈ (split_args args).1 ↔ a ∈ args ∧ is_flag a)
  ∧ (∀ args, a ∈ (split_args args).2 ↔ a ∈ args ∧ ¬ is_flag a)
  ∧ split_args [""] = ([], [""]).
Proof.
  split_and!.
  - intros pre post.
    rewrite (split_args_app pre (a :: post)).
    change (a :: post) with ([a] ++ post).
    rewrite (split_args_app [a] post), split_args_singleton.
    fold (is_flag a). by destruct (decide (is_flag a)).
  - intros args. rewrite split_args_filter. cbn [fst].
    rewrite list_elem_of_filter. tauto.
  - intros args. rewrite split_args_filter. cbn [snd].
    rewrite list_elem_of_filter. tauto.
  - reflexivity.
Qed.

(** C3: the two results of [split_args] are a stable partition of its
    argument.  Their lengths add up to its length; the argument is a merge
    of the two, so every position of it is in exactly one of them and each
    keeps the order of the argument; and no string is in both. *)
Theorem split_args_stable_partition (A : list string) :
  let flags := (split_args A).1 in
  let values := (split_args A).2 in
  length flags + length values = length A
  ∧ interleave flags values A
  ∧ flags ++ values ≡ₚ A
  ∧ flags `sublist_of` A
  ∧ values `sublist_of` A
  ∧ (∀ x, x ∈ A ↔ x ∈ flags ∨ x ∈ values)
  ∧ (∀ x, ¬ (x ∈ flags ∧ x ∈ values)).
Proof.
  intros flags values.
  assert (Hm : interleave flags values A).
  { subst flags values. rewrite split_args_filter. apply interleave_filter. }
  split_and!.
  - by apply interleave_length.
  - done.
  - by apply interleave_Permutation.
  - by eapply interleave_sublist_l.
  - by eapply interleave_sublist_r.
  - intros x. rewrite <-(interleave_Permutation _ _ _ Hm).
    apply elem_of_app.
  - intros x. subst flags values. rewrite split_args_filter. cbn [fst snd].
    rewrite !list_elem_of_filter. tauto.
Qed.

(** C6: the empty argument list is split into two empty lists, and a run
    without user arguments writes a lone line terminator as its formatted
    line. *)
Theorem no_arguments (prog : string) :
  split_args [] = ([], [])
  ∧ formatted_line [prog] = Some Py.newline
  ∧ run [prog] = [prog +:+ Py.newline; Py.newline].
Proof. by rewrite run_spec, formatted_line_spec. Qed.

(** ** The formatted line *)

(** C4: the values are joined by the empty string when the literal [-s] is
    one of the flags and by a single space otherwise.  The test is on whole
    tokens: [-s] is one of the flags exactly when it is one of the user
    arguments, and a flag that only begins with [-s] does not count. *)
Theorem separator_rule (argv : list string) :
  formatted_line argv
  = Some (Py.join (if decide ("-s" ∈ flags_of argv) then "" else " ")
            (values_of argv)
          +:+ end_ (flags_of argv))
  ∧ ("-s" ∈ flags_of argv ↔ "-s" ∈ drop 1 argv)
  ∧ formatted_line ["echo.py"; "-s"; "a"; "b"; "c"]
    = Some ("abc" +:+ Py.newline)
  ∧ formatted_line ["echo.py"; "-sx"; "a"; "b"; "c"]
    = Some ("a b c" +:+ Py.newline).
Proof.
  split_and!; [|apply elem_of_flags_of, dash_s_is_flag|reflexivity..].
  rewrite formatted_line_spec. unfold sep, Py.contains.
  by rewrite bool_decide_decide; case_decide.
Qed.

(** C5: the formatted line is closed by nothing when the literal [-n] is
    one of the flags and by one line terminator otherwise. *)
Theorem terminator_rule (argv : list string) :
  formatted_line argv
  = Some (Py.join (sep (flags_of argv)) (values_of argv)
          +:+ (if decide ("-n" ∈ flags_of argv) then "" else Py.newline))
  ∧ ("-n" ∈ flags_of argv ↔ "-n" ∈ drop 1 argv)
  ∧ String.length Py.newline = 1
  ∧ formatted_line ["echo.py"; "-n"; "-s"; "a"; "b"] = Some "ab"
  ∧ formatted_line ["echo.py"; "-n"; "foo"; "bar"] = Some "foo bar".
Proof.
  split_and!; [|apply elem_of_flags_of, dash_n_is_flag|reflexivity..].
  rewrite formatted_line_spec. unfold end_, Py.contains.
  by rewrite bool_decide_decide; case_decide.
Qed.

(** C7: a flag other than the literals [-n] and [-s] is taken without
    error (the run makes its two writes) and does not show in the formatted
    line: taking it out, or putting another such flag in its place, leaves
    the formatted line as it is. *)
Theorem unrecognized_flag_ignored
    (prog : string) (pre post : list string) (f g : string) :
  is_flag f → f ≠ "-n" → f ≠ "-s" →
  is_flag g → g ≠ "-n" → g ≠ "-s" →
  length (run (prog :: pre ++ f :: post)) = 2
  ∧ formatted_line (prog :: pre ++ f :: post)
    = formatted_line (prog :: pre ++ post)
  ∧ formatted_line (prog :: pre ++ f :: post)
    = formatted_line (prog :: pre ++ g :: post).
Proof.
  intros Hf Hfn Hfs Hg Hgn Hgs.
  assert (Hdrop : ∀ h, is_flag h → h ≠ "-n" → h ≠ "-s" →
            formatted_line (prog :: pre ++ h :: post)
            = formatted_line (prog :: pre ++ post)).
  { intros h Hh Hhn Hhs. apply formatted_line_ext.
    - by apply values_of_insert_flag.
    - rewrite elem_of_flags_of_insert by done.
      split; [by intros [?|?]|by right].
    - rewrite elem_of_flags_of_insert by done.
      split; [by intros [?|?]|by right]. }
  split_and!.
  - by rewrite run_spec.
  - by apply Hdrop.
  - by rewrite !Hdrop.
Qed.

(** The flag [-x] between the value [a] and the arguments [-n], [b], taken
    out or changed to [--verbose]. *)
Lemma unrecognized_flag_ignored_witness :
  length (run ("echo.py" :: ["a"] ++ "-x" :: ["-n"; "b"])) = 2
  ∧ formatted_line ("echo.py" :: ["a"] ++ "-x" :: ["-n"; "b"])
    = formatted_line ("echo.py" :: ["a"] ++ ["-n"; "b"])
  ∧ formatted_line ("echo.py" :: ["a"] ++ "-x" :: ["-n"; "b"])
    = formatted_line ("echo.py" :: ["a"] ++ "--verbose" :: ["-n"; "b"]).
Proof.
  apply (unrecognized_flag_ignored "echo.py" ["a"] ["-n"; "b"]
           "-x" "--verbose").
  - split; [discriminate|reflexivity].
  - discriminate.
  - discriminate.
  - split; [discriminate|reflexivity].
  - discriminate.
  - discriminate.
Defined.

(** C10: the formatted line does not depend on where a flag stands.  Two
    argument lists that are one and the same list with the same flag put in
    at two places, the end included, have the same formatted line. *)
Theorem flag_position_irrelevant
    (prog : string) (pre post pre' post' : list string) (f : string) :
  is_flag f →
  pre ++ post = pre' ++ post' →
  formatted_line (prog :: pre ++ f :: post)
  = formatted_line (prog :: pre' ++ f :: post')
  ∧ formatted_line (prog :: pre ++ f :: post)
    = formatted_line (prog :: (pre ++ post) ++ [f]).
Proof.
  intros Hf Heq.
  assert (Hmove : ∀ l1 r1 l2 r2, l1 ++ r1 = l2 ++ r2 →
            formatted_line (prog :: l1 ++ f :: r1)
            = formatted_line (prog :: l2 ++ f :: r2)).
  { intros l1 r1 l2 r2 E. apply formatted_line_ext.
    - by rewrite !values_of_insert_flag, E.
    - by rewrite !elem_of_flags_of_insert, E.
    - by rewrite !elem_of_flags_of_insert, E. }
  split.
  - by apply Hmove.
  - apply Hmove. by rewrite app_nil_r.
Qed.

(** The flag [-s] in front of [a], [-n], [b], or between [-n] and [b], or
    at the end. *)
Lemma flag_position_irrelevant_witness :
  formatted_line ("echo.py" :: [] ++ "-s" :: ["a"; "-n"; "b"])
  = formatted_line ("echo.py" :: ["a"; "-n"] ++ "-s" :: ["b"])
  ∧ formatted_line ("echo.py" :: [] ++ "-s" :: ["a"; "-n"; "b"])
    = formatted_line ("echo.py" :: ([] ++ ["a"; "-n"; "b"]) ++ ["-s"]).
Proof.
  apply (flag_position_irrelevant "echo.py" [] ["a"; "-n"; "b"]
           ["a"; "-n"] ["b"] "-s").
  - split; [discriminate|reflexivity].
  - reflexivity.
Defined.

(** ** Further properties of the script *)

Section further.
Implicit Types (argv args A : list string) (prog a s : string).

Lemma join_empty_cons s (ts : list string) :
  Py.join "" (s :: ts) = s +:+ Py.join "" ts.
Proof. rewrite join_cons. by case_decide; subst. Qed.

Lemma join_empty_app (ts us : list string) :
  Py.join "" (ts ++ us) = Py.join "" ts +:+ Py.join "" us.
Proof.
  induction ts as [|t ts IH]; [done|].
  change ((t :: ts) ++ us) with (t :: (ts ++ us)).
  by rewrite !join_empty_cons, IH, append_assoc.
Qed.

(** The first character of a text that is not empty is the first character
    of whatever is appended to it. *)
Lemma startswith_append s (u : string) :
  s ≠ "" → Py.startswith (s +:+ u) "-" = Py.startswith s "-".
Proof.
  destruct s as [|c s]; [done|]. intros _.
  change (String c s +:+ u) with (String c (s +:+ u)).
  unfold Py.startswith. cbn [String.prefix].
  destruct (Ascii.ascii_dec "-" c); [|done]. by destruct (s +:+ u), s.
Qed.

Lemma startswith_join (seps e : string) (vs : list string) :
  Forall (λ v, Py.startswith v "-" = false) vs →
  seps = "" ∨ seps = " " →
  Py.startswith e "-" = false →
  Py.startswith (Py.join seps vs +:+ e) "-" = false.
Proof.
  intros Hvs Hsep He. induction Hvs as [|v vs Hv _ IH]; [done|].
  rewrite join_cons. destruct (decide (v = "")) as [->|Hne].
  - case_decide as Hnil; [done|]. destruct Hsep as [->| ->].
    + exact IH.
    + done.
  - by rewrite append_assoc, startswith_append.
Qed.

Lemma values_of_filter argv :
  values_of argv = filter (λ a, ¬ is_flag a) (drop 1 argv).
Proof. unfold values_of, Py.slice_from_1. by rewrite split_args_filter. Qed.

Lemma split_args_no_flags A :
  Forall (λ a, Py.startswith a "-" = false) A → split_args A = ([], A).
Proof.
  rewrite split_args_filter. induction 1 as [|a A Ha%startswith_dash_false _ IH];
    [done|].
  rewrite (filter_cons_False is_flag) by done.
  rewrite (filter_cons_True (λ a, ¬ is_flag a)) by done.
  by injection IH as -> ->.
Qed.

Lemma split_args_all_flags A :
  Forall (λ a, Py.startswith a "-" = true) A → split_args A = (A, []).
Proof.
  rewrite split_args_filter. induction 1 as [|a A Ha%startswith_dash _ IH];
    [done|].
  rewrite (filter_cons_True is_flag) by done.
  rewrite (filter_cons_False (λ a, ¬ is_flag a)) by auto.
  by injection IH as -> ->.
Qed.

Lemma split_args_fst_flags A :
  Forall (λ a, Py.startswith a "-" = true) (split_args A).1.
Proof.
  rewrite split_args_filter. cbn [fst]. apply Forall_forall. intros a.
  rewrite list_elem_of_filter, startswith_dash. tauto.
Qed.

Lemma split_args_snd_values A :
  Forall (λ a, Py.startswith a "-" = false) (split_args A).2.
Proof.
  rewrite split_args_filter. cbn [snd]. apply Forall_forall. intros a.
  rewrite list_elem_of_filter, startswith_dash_false. tauto.
Qed.

End further.

(** X1: [split_args] goes through concatenation: the flags of two argument
    lists put end to end are the flags of the first followed by those of
    the second, and the same for the values. *)
Theorem split_args_distributes (A B : list string) :
  split_args (A ++ B)
  = ((split_args A).1 ++ (split_args B).1,
     (split_args A).2 ++ (split_args B).2).
Proof.
  unfold split_args. rewrite foldl_app.
  destruct (foldl split_step ([], []) A) as [fs rs].
  rewrite split_loop, (split_loop [] [] B). by cbn [fst snd app].
Qed.

(** X2: the results of [split_args] are stable under [split_args]: the
    flags it returns are split into themselves and no value, the values it
    returns into no flag and themselves. *)
Theorem split_args_results_stable (A : list string) :
  split_args (split_args A).1 = ((split_args A).1, [])
  ∧ split_args (split_args A).2 = ([], (split_args A).2).
Proof.
  split.
  - apply split_args_all_flags, split_args_fst_flags.
  - apply split_args_no_flags, split_args_snd_values.
Qed.

(** X3: [split_args] returns no flag and its whole argument exactly when no
    element begins with [-], and its whole argument and no value exactly
    when every element begins with [-]. *)
Theorem split_args_one_sided (A : list string) :
  (split_args A = ([], A) ↔ Forall (λ a, Py.startswith a "-" = false) A)
  ∧ (split_args A = (A, []) ↔ Forall (λ a, Py.startswith a "-" = true) A).
Proof.
  split; split.
  - intros H. pose proof (split_args_snd_values A) as HF. by rewrite H in HF.
  - apply split_args_no_flags.
  - intros H. pose proof (split_args_fst_flags A) as HF. by rewrite H in HF.
  - apply split_args_all_flags.
Qed.

(** X4: the formatted line never begins with [-]: every argument that does
    is taken as a flag, so none can be echoed at the front of the line. *)
Theorem formatted_line_never_starts_with_dash (argv : list string) :
  ∃ line, formatted_line argv = Some line ∧ Py.startswith line "-" = false.
Proof.
  eexists. split; [apply formatted_line_spec|].
  apply startswith_join.
  - apply split_args_snd_values.
  - unfold sep. destruct (Py.contains "-s" (flags_of argv)); auto.
  - unfold end_. by destruct (Py.contains "-n" (flags_of argv)).
Qed.

(** X5: flags count once: an argument that is already one of the flags can
    be given once more, at any place, and the formatted line stays as it
    is. *)
Theorem repeated_flag_ignored
    (prog : string) (pre post : list string) (f : string) :
  f ∈ flags_of (prog :: pre ++ post) →
  formatted_line (prog :: pre ++ f :: post)
  = formatted_line (prog :: pre ++ post).
Proof.
  intros Hin.
  assert (Hf : is_flag f).
  { rewrite flags_of_cons, list_elem_of_filter in Hin. tauto. }
  apply formatted_line_ext.
  - by apply values_of_insert_flag.
  - rewrite elem_of_flags_of_insert by done.
    split; [by intros [->|?]|by right].
  - rewrite elem_of_flags_of_insert by done.
    split; [by intros [->|?]|by right].
Qed.

(** A second [-n] after the value [a]. *)
Lemma repeated_flag_ignored_witness :
  formatted_line ("echo.py" :: ["-n"; "a"] ++ "-n" :: ["b"])
  = formatted_line ("echo.py" :: ["-n"; "a"] ++ ["b"]).
Proof.
  apply (repeated_flag_ignored "echo.py" ["-n"; "a"] ["b"] "-n").
  apply (bool_decide_unpack _). vm_compute. exact I.
Defined.

(** X6: when there are user arguments and none of them begins with [-],
    the first line is the invocation name, a space, and then the formatted
    line. *)
Theorem first_line_of_flagless_args (prog : string) (args : list string) :
  args ≠ [] →
  Forall (λ a, Py.startswith a "-" = false) args →
  first_line (prog :: args)
  = (λ line, prog +:+ " " +:+ line) <$> formatted_line (prog :: args).
Proof.
  intros Hne Hargs.
  rewrite first_line_spec, formatted_line_spec.
  pose proof (split_args_no_flags _ Hargs) as Hsplit.
  rewrite split_args_filter in Hsplit. injection Hsplit as Hf Hv.
  rewrite flags_of_cons, values_of_cons, Hf, Hv.
  cbn [fmap option_fmap option_map].
  rewrite join_cons, decide_False by done.
  by rewrite !append_assoc.
Qed.

(** The values [a] and [b]. *)
Lemma first_line_of_flagless_args_witness :
  first_line ("echo.py" :: ["a"; "b"])
  = (λ line, "echo.py" +:+ " " +:+ line)
      <$> formatted_line ("echo.py" :: ["a"; "b"]).
Proof.
  apply (first_line_of_flagless_args "echo.py" ["a"; "b"]).
  - discriminate.
  - repeat constructor.
Defined.

(** X7: with [-s] among the user arguments, an empty string among them
    leaves no trace in the formatted line. *)
Theorem empty_value_vanishes_under_s
    (prog : string) (pre post : list string) :
  "-s" ∈ pre ++ post →
  formatted_line (prog :: pre ++ "" :: post)
  = formatted_line (prog :: pre ++ post).
Proof.
  intros Hs. rewrite !formatted_line_spec.
  assert (Hflags : flags_of (prog :: pre ++ "" :: post)
                   = flags_of (prog :: pre ++ post)).
  { rewrite !flags_of_cons, !filter_app.
    by rewrite (filter_cons_False is_flag) by apply empty_not_flag. }
  assert (Hsep : sep (flags_of (prog :: pre ++ post)) = "").
  { unfold sep, Py.contains. rewrite bool_decide_eq_true_2; [done|].
    by apply elem_of_flags_of; [apply dash_s_is_flag|]. }
  rewrite Hflags, Hsep, !values_of_cons, !filter_app.
  rewrite (filter_cons_True (λ a, ¬ is_flag a)) by apply empty_not_flag.
  by rewrite !join_empty_app, join_empty_cons.
Qed.

(** An empty string between [a] and [b], after [-s]. *)
Lemma empty_value_vanishes_under_s_witness :
  formatted_line ("echo.py" :: ["-s"; "a"] ++ "" :: ["b"])
  = formatted_line ("echo.py" :: ["-s"; "a"] ++ ["b"]).
Proof.
  apply (empty_value_vanishes_under_s "echo.py" ["-s"; "a"] ["b"]).
  apply (bool_decide_unpack _). vm_compute. exact I.
Defined.

(** X8: the invocation name is never classified: whatever [argv[0]] is, be
    it [-n] or [-s], the formatted line is that of the user arguments. *)
Theorem invocation_name_not_classified
    (prog prog' : string) (args : list string) :
  formatted_line (prog :: args) = formatted_line (prog' :: args)
  ∧ flags_of (prog :: args) = (split_args args).1
  ∧ values_of (prog :: args) = (split_args args).2.
Proof. by rewrite !formatted_line_spec. Qed.

(** X9: when every user argument begins with [-] there is nothing to echo:
    the formatted line is the terminator alone, which is empty when [-n] is
    one of the arguments, whether [-s] is given or not. *)
Theorem only_flags_echo_nothing (prog : string) (args : list string) :
  Forall (λ a, Py.startswith a "-" = true) args →
  formatted_line (prog :: args)
  = Some (if decide ("-n" ∈ args) then "" else Py.newline).
Proof.
  intros Hargs. rewrite formatted_line_spec.
  pose proof (split_args_all_flags _ Hargs) as Hsplit.
  rewrite split_args_filter in Hsplit. injection Hsplit as Hf Hv.
  rewrite flags_of_cons, values_of_cons, Hf, Hv.
  unfold end_, Py.contains. rewrite bool_decide_decide. by case_decide.
Qed.

(** The arguments [-s] and [-n]. *)
Lemma only_flags_echo_nothing_witness :
  formatted_line ("echo.py" :: ["-s"; "-n"])
  = Some (if decide ("-n" ∈ ["-s"; "-n"]) then "" else Py.newline).
Proof.
  apply (only_flags_echo_nothing "echo.py" ["-s"; "-n"]).
  repeat constructor.
Defined.
